(** * A shallow embedding of the survey store (src/store/surveyStore.ts),
    of the two model-backed actions (src/actions/survay.ts) and of the
    client's resume logic (src/cleint/index.ts, [resumeSurvey]). *)

From stdpp Require Import base gmap strings list.
From Stdlib Require Import Ascii String NArith.

Open Scope string_scope.
Set Warnings "-register-all".

(* ================================================================== *)
(** ** Outcomes of a JavaScript call: a value or a thrown error *)

Inductive js_error :=
  | NotFound (surveyId : string)   (* new Error(`Survey ${id} not found`) *)
  | TypeError                      (* property access on undefined / null *)
  | SyntaxError.                   (* JSON.parse rejected its input *)

Inductive outcome (A : Type) :=
  | Ok (a : A)
  | Throw (e : js_error).
Arguments Ok {A} a.
Arguments Throw {A} e.

Definition is_throw {A} (o : outcome A) : bool :=
  match o with Throw _ => true | Ok _ => false end.

(* ================================================================== *)
(** ** JSON values and [JSON.parse]

    The values [JSON.parse] produces.  Numbers are kept as their
    lexeme; strings are byte strings (a [\uXXXX] escape is decoded to
    its UTF-8 bytes). *)

Inductive json :=
  | JNull
  | JBool (b : bool)
  | JNum (lexeme : string)
  | JStr (s : string)
  | JArr (items : list json)
  | JObj (fields : list (string * json)).

Module JsonParse.

(** The double quote character. *)
Definition quote_char : ascii := ascii_of_nat 34.

Definition is_ws (c : ascii) : bool :=
  match nat_of_ascii c with 32 | 9 | 10 | 13 => true | _ => false end.

Fixpoint skip_ws (cs : list ascii) : list ascii :=
  match cs with
  | c :: r => if is_ws c then skip_ws r else cs
  | [] => []
  end.

Definition is_digit (c : ascii) : bool :=
  let n := nat_of_ascii c in Nat.leb 48 n && Nat.leb n 57.

Fixpoint take_digits (cs : list ascii) : list ascii * list ascii :=
  match cs with
  | c :: r => if is_digit c then let '(ds, rest) := take_digits r in (c :: ds, rest)
              else ([], cs)
  | [] => ([], [])
  end.

(** [lit] is a prefix of [cs]: the rest after it. *)
Fixpoint eat (lit : list ascii) (cs : list ascii) : option (list ascii) :=
  match lit, cs with
  | [], _ => Some cs
  | l :: lr, c :: cr => if Ascii.eqb l c then eat lr cr else None
  | _ :: _, [] => None
  end.

(** number = [-] int [frac] [exp]; int = 0 | [1-9] digit* *)
Definition parse_number (cs : list ascii) : option (list ascii * list ascii) :=
  let '(sign, cs1) := match cs with
                      | "-"%char :: r => (["-"%char], r)
                      | _ => ([], cs)
                      end in
  let int_part :=
    match cs1 with
    | "0"%char :: r => Some (["0"%char], r)
    | c :: r => if is_digit c then let '(ds, r') := take_digits r in Some (c :: ds, r')
                else None
    | [] => None
    end in
  match int_part with
  | None => None
  | Some (ip, r1) =>
    let frac :=
      match r1 with
      | "."%char :: r2 =>
          let '(ds, r3) := take_digits r2 in
          match ds with [] => None | _ => Some ("."%char :: ds, r3) end
      | _ => Some ([], r1)
      end in
    match frac with
    | None => None
    | Some (fp, r3) =>
      let expo :=
        match r3 with
        | e :: r4 =>
          if Ascii.eqb e "e" || Ascii.eqb e "E" then
            let '(sg, r5) := match r4 with
                             | "+"%char :: r => (["+"%char], r)
                             | "-"%char :: r => (["-"%char], r)
                             | _ => ([], r4)
                             end in
            let '(ds, r6) := take_digits r5 in
            match ds with [] => None | _ => Some (e :: app sg ds, r6) end
          else Some ([], r3)
        | [] => Some ([], r3)
        end in
      match expo with
      | None => None
      | Some (ep, r6) => Some (app sign (app ip (app fp ep)), r6)
      end
    end
  end.

Definition hex_val (c : ascii) : option N :=
  let n := N_of_ascii c in
  if (48 <=? n)%N && (n <=? 57)%N then Some (n - 48)%N
  else if (65 <=? n)%N && (n <=? 70)%N then Some (n - 55)%N
  else if (97 <=? n)%N && (n <=? 102)%N then Some (n - 87)%N
  else None.

(** The UTF-8 bytes of a code unit below 0x10000. *)
Definition utf8_of (cp : N) : list ascii :=
  if (cp <? 128)%N then [ascii_of_N cp]
  else if (cp <? 2048)%N then
    [ascii_of_N (192 + cp / 64); ascii_of_N (128 + cp mod 64)]
  else [ascii_of_N (224 + cp / 4096); ascii_of_N (128 + (cp / 64) mod 64);
        ascii_of_N (128 + cp mod 64)].

(** One escape sequence, after its backslash: the bytes it stands for. *)
Definition escape (cs : list ascii) : option (list ascii * list ascii) :=
  match cs with
  | e :: r =>
    if Ascii.eqb e quote_char then Some ([e], r)
    else if Ascii.eqb e "\" then Some ([e], r)
    else if Ascii.eqb e "/" then Some ([e], r)
    else if Ascii.eqb e "b" then Some ([ascii_of_nat 8], r)
    else if Ascii.eqb e "f" then Some ([ascii_of_nat 12], r)
    else if Ascii.eqb e "n" then Some ([ascii_of_nat 10], r)
    else if Ascii.eqb e "r" then Some ([ascii_of_nat 13], r)
    else if Ascii.eqb e "t" then Some ([ascii_of_nat 9], r)
    else if Ascii.eqb e "u" then
      match r with
      | h1 :: h2 :: h3 :: h4 :: r' =>
        match hex_val h1, hex_val h2, hex_val h3, hex_val h4 with
        | Some a, Some b, Some c, Some d =>
            Some (utf8_of (((a * 16 + b) * 16 + c) * 16 + d)%N, r')
        | _, _, _, _ => None
        end
      | _ => None
      end
    else None
  | [] => None
  end.

(** The body of a string literal, after its opening quote (fuel: one
    step per character). *)
Fixpoint string_body (fuel : nat) (cs : list ascii) : option (list ascii * list ascii) :=
  match fuel with
  | O => None
  | S f =>
    match cs with
    | [] => None
    | c :: r =>
      if Ascii.eqb c quote_char then Some ([], r)
      else if (nat_of_ascii c <? 32)%nat then None
      else if Ascii.eqb c "\" then
        match escape r with
        | None => None
        | Some (out, r') =>
          match string_body f r' with
          | None => None
          | Some (s, rest) => Some (app out s, rest)
          end
        end
      else
        match string_body f r with
        | None => None
        | Some (s, rest) => Some (c :: s, rest)
        end
    end
  end.

(** Recursive descent with fuel: every nested call is made after at least
    one character has been consumed, so [S (length cs)] is enough. *)
Fixpoint value (fuel : nat) (cs : list ascii) : option (json * list ascii) :=
  match fuel with
  | O => None
  | S f =>
    match skip_ws cs with
    | [] => None
    | c :: r =>
      if Ascii.eqb c "n" then
        option_map (fun r' => (JNull, r')) (eat ["u"; "l"; "l"]%char r)
      else if Ascii.eqb c "t" then
        option_map (fun r' => (JBool true, r')) (eat ["r"; "u"; "e"]%char r)
      else if Ascii.eqb c "f" then
        option_map (fun r' => (JBool false, r')) (eat ["a"; "l"; "s"; "e"]%char r)
      else if Ascii.eqb c quote_char then
        option_map (fun '(s, r') => (JStr (string_of_list_ascii s), r')) (string_body (S (List.length r)) r)
      else if Ascii.eqb c "-" || is_digit c then
        option_map (fun '(n, r') => (JNum (string_of_list_ascii n), r'))
                   (parse_number (c :: r))
      else if Ascii.eqb c "[" then
        match skip_ws r with
        | "]"%char :: r' => Some (JArr [], r')
        | _ =>
          match value f r with
          | None => None
          | Some (v, r1) =>
            match elements f r1 with
            | None => None
            | Some (vs, r2) => Some (JArr (v :: vs), r2)
            end
          end
        end
      else if Ascii.eqb c "{" then
        match skip_ws r with
        | "}"%char :: r' => Some (JObj [], r')
        | _ =>
          match member f r with
          | None => None
          | Some (kv, r1) =>
            match members f r1 with
            | None => None
            | Some (kvs, r2) => Some (JObj (kv :: kvs), r2)
            end
          end
        end
      else None
    end
  end
(** The rest of an array after its first element: [, value]* ] *)
with elements (fuel : nat) (cs : list ascii) : option (list json * list ascii) :=
  match fuel with
  | O => None
  | S f =>
    match skip_ws cs with
    | "]"%char :: r => Some ([], r)
    | ","%char :: r =>
      match value f r with
      | None => None
      | Some (v, r1) =>
        match elements f r1 with
        | None => None
        | Some (vs, r2) => Some (v :: vs, r2)
        end
      end
    | _ => None
    end
  end
(** One member: string : value *)
with member (fuel : nat) (cs : list ascii) : option ((string * json) * list ascii) :=
  match fuel with
  | O => None
  | S f =>
    match skip_ws cs with
    | c :: r =>
      if Ascii.eqb c quote_char then
        match string_body (S (List.length r)) r with
        | None => None
        | Some (k, r1) =>
          match skip_ws r1 with
          | ":"%char :: r2 =>
            match value f r2 with
            | None => None
            | Some (v, r3) => Some ((string_of_list_ascii k, v), r3)
            end
          | _ => None
          end
        end
      else None
    | [] => None
    end
  end
(** The rest of an object after its first member: [, member]* } *)
with members (fuel : nat) (cs : list ascii) : option (list (string * json) * list ascii) :=
  match fuel with
  | O => None
  | S f =>
    match skip_ws cs with
    | "}"%char :: r => Some ([], r)
    | ","%char :: r =>
      match member f r with
      | None => None
      | Some (kv, r1) =>
        match members f r1 with
        | None => None
        | Some (kvs, r2) => Some (kv :: kvs, r2)
        end
      end
    | _ => None
    end
  end.

End JsonParse.

(** [JSON.parse text]: [None] where it throws a SyntaxError. *)
Definition json_parse (text : string) : option json :=
  let cs := list_ascii_of_string text in
  match JsonParse.value (S (List.length cs)) cs with
  | Some (v, rest) =>
      match JsonParse.skip_ws rest with [] => Some v | _ :: _ => None end
  | None => None
  end.

(* ================================================================== *)
(** ** The record store (src/store/surveyStore.ts) *)

Inductive question_type := QBoolean | QScale.

Record StoredQuestion := {
  q_id : string;
  q_type : question_type;
  label : string;
  minLabel : option (option string);   (* minLabel?: string | null *)
  maxLabel : option (option string);
}.

Record StoredAnswer := {
  question : StoredQuestion;
  answer : string;
}.

Record StoredSummary := {
  ss_summary : string;
  insights : list string;
  recommendations : list string;
}.

Inductive chat_role := RoleUser | RoleAssistant.

Record ChatTurn := {
  role : chat_role;
  content : string;
  ts : string;
}.

Record SurveyRecord := {
  id : string;
  topic : string;
  createdAt : string;
  answers : list StoredAnswer;
  summary : option StoredSummary;     (* StoredSummary | null *)
  chat : list ChatTurn;
}.

(** [interface Store { surveys: Record<string, SurveyRecord> }]: the own
    properties of the [surveys] object. *)
Record Store := { surveys : gmap string SurveyRecord }.

Definition empty_store : Store := {| surveys := ∅ |}.

(** The backing file data/surveys.json.  [Corrupt raw] is a file whose
    text [JSON.parse] rejects; [Saved st] is the text [saveStore st]
    wrote, which [JSON.parse] reads back as [st]. *)
Inductive disk :=
  | NoFile
  | Corrupt (raw : string)
  | Saved (st : Store).

(** [loadStore]: a missing file and a [JSON.parse] failure (the [catch])
    both give [{ surveys: {} }]. *)
Definition loadStore (d : disk) : Store :=
  match d with
  | NoFile => empty_store
  | Corrupt _ => empty_store
  | Saved st => st
  end.

Definition saveStore (st : Store) : disk := Saved st.

(** [store.surveys[key]] on a plain object: an own property, else a
    property inherited from [Object.prototype], else [undefined]. *)
Definition object_prototype_keys : list string :=
  ["constructor"; "__proto__"; "toString"; "toLocaleString"; "valueOf";
   "hasOwnProperty"; "isPrototypeOf"; "propertyIsEnumerable";
   "__defineGetter__"; "__defineSetter__"; "__lookupGetter__"; "__lookupSetter__"].

Inductive property :=
  | OwnRecord (r : SurveyRecord)
  | Inherited (name : string).   (* Object.prototype[name]: a function or Object.prototype *)

Definition surveys_get (store : Store) (key : string) : option property :=
  match surveys store !! key with
  | Some r => Some (OwnRecord r)
  | None => if decide (key ∈ object_prototype_keys) then Some (Inherited key) else None
  end.

Definition with_answers (r : SurveyRecord) (a : list StoredAnswer) : SurveyRecord :=
  {| id := id r; topic := topic r; createdAt := createdAt r;
     answers := a; summary := summary r; chat := chat r |}.

Definition with_summary (r : SurveyRecord) (s : option StoredSummary) : SurveyRecord :=
  {| id := id r; topic := topic r; createdAt := createdAt r;
     answers := answers r; summary := s; chat := chat r |}.

Definition with_chat (r : SurveyRecord) (c : list ChatTurn) : SurveyRecord :=
  {| id := id r; topic := topic r; createdAt := createdAt r;
     answers := answers r; summary := summary r; chat := c |}.

(** The shape of [crypto.randomUUID()]: 36 characters, lowercase hex
    digits with dashes at positions 8, 13, 18 and 23. *)
Definition is_lower_hex (c : ascii) : bool :=
  let n := nat_of_ascii c in (Nat.leb 48 n && Nat.leb n 57) || (Nat.leb 97 n && Nat.leb n 102).

Definition is_uuid (s : string) : bool :=
  let cs := list_ascii_of_string s in
  Nat.eqb (List.length cs) 36 &&
  forallb (fun '(i, c) =>
             if existsb (Nat.eqb i) [8; 13; 18; 23] then Ascii.eqb c "-" else is_lower_hex c)
          (combine (seq 0 36) cs).

(** [createSurvey(topic)], with the results of [crypto.randomUUID()] and
    [new Date().toISOString()] as the inputs [uuid] and [now].  The
    assignment [store.surveys[id] = record] creates an own property, except
    for the key ["__proto__"], whose setter only replaces the prototype of
    the in-memory object. *)
Definition createSurvey (topic0 uuid now : string) (d : disk) : SurveyRecord * disk :=
  let store := loadStore d in
  let record := {| id := uuid; topic := topic0; createdAt := now;
                   answers := []; summary := None; chat := [] |} in
  let surveys' := if String.eqb uuid "__proto__" then surveys store
                  else <[uuid := record]> (surveys store) in
  (record, saveStore {| surveys := surveys' |}).

(** [appendAnswers(surveyId, answers)].  On an inherited property,
    [record.answers] is [undefined] and [.push] throws a TypeError. *)
Definition appendAnswers (surveyId : string) (ans : list StoredAnswer) (d : disk)
    : outcome unit * disk :=
  let store := loadStore d in
  match surveys_get store surveyId with
  | None => (Throw (NotFound surveyId), d)
  | Some (Inherited _) => (Throw TypeError, d)
  | Some (OwnRecord r) =>
      (Ok tt, saveStore {| surveys := <[surveyId := with_answers r (answers r ++ ans)%list]>
                                        (surveys store) |})
  end.

(** [saveSummary(surveyId, summary)].  On an inherited property the
    assignment [record.summary = summary] lands on a built-in object, not
    on the store, and the store is written back as it was read. *)
Definition saveSummary (surveyId : string) (s : StoredSummary) (d : disk)
    : outcome unit * disk :=
  let store := loadStore d in
  match surveys_get store surveyId with
  | None => (Throw (NotFound surveyId), d)
  | Some (Inherited _) => (Ok tt, saveStore store)
  | Some (OwnRecord r) =>
      (Ok tt, saveStore {| surveys := <[surveyId := with_summary r (Some s)]> (surveys store) |})
  end.

(** [appendChatTurns(surveyId, turns)]. *)
Definition appendChatTurns (surveyId : string) (turns : list ChatTurn) (d : disk)
    : outcome unit * disk :=
  let store := loadStore d in
  match surveys_get store surveyId with
  | None => (Throw (NotFound surveyId), d)
  | Some (Inherited _) => (Throw TypeError, d)
  | Some (OwnRecord r) =>
      (Ok tt, saveStore {| surveys := <[surveyId := with_chat r (chat r ++ turns)%list]>
                                        (surveys store) |})
  end.

(** [getSurvey(surveyId)]: [store.surveys[surveyId] ?? null]; [None] is
    [null].  It reads the file and writes nothing. *)
Definition getSurvey (surveyId : string) (d : disk) : option property * disk :=
  (surveys_get (loadStore d) surveyId, d).

(** [listSurveys()]: the projection of every own record (the order of
    [Object.values] is not modelled). *)
Definition listSurveys (d : disk) : list (string * string * string) * disk :=
  (map (fun '(_, r) => (id r, topic r, createdAt r)) (map_to_list (surveys (loadStore d))), d).

(* ================================================================== *)
(** ** The model-backed actions (src/actions/survay.ts) *)

(** [json.field] on a value [JSON.parse] produced.  On [null] it throws;
    on an object it is the last binding of the key ([JSON.parse] keeps
    the last duplicate); the keys read here ([questions], [summary],
    [insights], [recommendations]) are not inherited by objects, arrays,
    strings, numbers or booleans, so otherwise it is [undefined]. *)
Definition get_field (v : json) (k : string) : outcome (option json) :=
  match v with
  | JNull => Throw TypeError
  | JObj fs => Ok (fold_left (fun acc '(k', x) => if String.eqb k k' then Some x else acc) fs None)
  | _ => Ok None
  end.

(** [x ?? dflt]: [undefined] ([None]) and [null] give the default. *)
Definition nullish (x : option json) (dflt : json) : json :=
  match x with
  | None | Some JNull => dflt
  | Some v => v
  end.

(** [result.message.content || '{}']: an absent or empty content is
    replaced by the text ["{}"]. *)
Definition content_or_empty (content : option string) : string :=
  match content with
  | None => "{}"
  | Some s => if String.eqb s EmptyString then "{}" else s
  end.

(** [JSON.parse(result.message.content || '{}')], with no [try] around it. *)
Definition parse_model_output (content : option string) : outcome json :=
  match json_parse (content_or_empty content) with
  | None => Throw SyntaxError
  | Some v => Ok v
  end.

(** The tail of [SurvayAction.handler]: [json.questions ?? []]. *)
Definition survay_questions (content : option string) : outcome json :=
  match parse_model_output content with
  | Throw e => Throw e
  | Ok v =>
    match get_field v "questions" with
    | Throw e => Throw e
    | Ok q => Ok (nullish q (JArr []))
    end
  end.

(** [summaryData] of [SubmitSurvayAction.handler]. *)
Record SummaryData := {
  sd_summary : json;
  sd_insights : json;
  sd_recommendations : json;
}.

Definition submit_summary (content : option string) : outcome SummaryData :=
  match parse_model_output content with
  | Throw e => Throw e
  | Ok v =>
    match get_field v "summary", get_field v "insights", get_field v "recommendations" with
    | Ok s, Ok i, Ok r =>
        Ok {| sd_summary := nullish s (JStr EmptyString);
              sd_insights := nullish i (JArr []);
              sd_recommendations := nullish r (JArr []) |}
    | Throw e, _, _ => Throw e
    | _, Throw e, _ => Throw e
    | _, _, Throw e => Throw e
    end
  end.

Section Handlers.

(** [setAnswers] is imported from the store module but is not defined in
    src/store/surveyStore.ts; [persistSummary] is the call
    [saveSummary(surveyId, summaryData)] on the data the model produced.
    Both handlers are stated for every behaviour of these two calls. *)
Variable setAnswers : string -> list StoredAnswer -> disk -> outcome unit * disk.
Variable persistSummary : string -> SummaryData -> disk -> outcome unit * disk.

(** [SurvayAction.handler] (POST /survay).  [uuid] and [now] feed
    [createSurvey]; [content] is [result.message.content] of
    [await adapter.prompt(promptState)]. *)
Definition survay_handler (topic0 : string) (surveyId : option string)
    (ans : list StoredAnswer) (uuid now : string) (content : option string) (d : disk)
    : outcome (string * json) * disk :=
  let '(sid, d1) :=
    match surveyId with
    | Some s => if String.eqb s EmptyString then let '(r, d') := createSurvey topic0 uuid now d in (id r, d')
                else (s, d)
    | None => let '(r, d') := createSurvey topic0 uuid now d in (id r, d')
    end in
  let '(o, d2) := match ans with [] => (Ok tt, d1) | _ :: _ => setAnswers sid ans d1 end in
  match o with
  | Throw e => (Throw e, d2)
  | Ok _ =>
    match survay_questions content with
    | Throw e => (Throw e, d2)
    | Ok q => (Ok (sid, q), d2)
    end
  end.

(** [SubmitSurvayAction.handler] (POST /submit-survay).  Both store calls
    sit in [try { ... } catch (err) { console.warn(...) }]: their outcome
    is dropped and only their effect on the file remains. *)
Definition submit_handler (surveyId : string) (ans : list StoredAnswer)
    (content : option string) (d : disk) : outcome (string * SummaryData) * disk :=
  let d1 := match ans with [] => d | _ :: _ => snd (setAnswers surveyId ans d) end in
  match submit_summary content with
  | Throw e => (Throw e, d1)
  | Ok data => (Ok (surveyId, data), snd (persistSummary surveyId data d1))
  end.

End Handlers.

(* ================================================================== *)
(** ** Resuming a session in the client (src/cleint/index.ts) *)

Inductive screen :=
  | SSplash | SLoading | SQuestion | SDecision | SResults | SChat | SHistory | SReview.

(** The module-level state of the client. *)
Record ClientState := {
  currentSurveyId : string;
  selectedTopic : string;
  allAnswers : list StoredAnswer;
  chatHistory : list (chat_role * string);
  questionQueue : list StoredQuestion;
  currentQuestionIndex : nat;
}.

(** Where [resumeSurvey] leaves the client: a screen, or a call of
    [startNewRound(isFirst)]. *)
Inductive resume_next :=
  | ShowScreen (s : screen)
  | StartNewRound (isFirst : bool).

(** [resumeSurvey(id)], given the result of [fetchSurveyRecord(id)]
    ([None] when it throws). *)
Definition resumeSurvey (fetched : option SurveyRecord) (st : ClientState)
    : ClientState * resume_next :=
  match fetched with
  | None => (st, ShowScreen SHistory)
  | Some record =>
    let st' := {| currentSurveyId := id record;
                  selectedTopic := topic record;
                  allAnswers := answers record;
                  chatHistory := map (fun t => (role t, content t)) (chat record);
                  questionQueue := questionQueue st;
                  currentQuestionIndex := currentQuestionIndex st |} in
    match summary record with
    | Some _ => (st', ShowScreen SResults)
    | None =>
      if Nat.ltb 0 (List.length (allAnswers st')) then (st', ShowScreen SDecision)
      else (st', StartNewRound true)
    end
  end.

(* ================================================================== *)
(** ** Sequences of calls and frame predicates *)

(** [appendAnswers(surveyId, b1); ...; appendAnswers(surveyId, bn)]. *)
Fixpoint appendAnswers_calls (surveyId : string) (bs : list (list StoredAnswer)) (d : disk)
    : list (outcome unit) * disk :=
  match bs with
  | [] => ([], d)
  | b :: bs' =>
    let '(o, d1) := appendAnswers surveyId b d in
    let '(os, d2) := appendAnswers_calls surveyId bs' d1 in
    (o :: os, d2)
  end.

(** Two optional records related by [R], or both absent. *)
Definition opt_rel (R : SurveyRecord -> SurveyRecord -> Prop)
    (o o' : option SurveyRecord) : Prop :=
  match o, o' with
  | Some r, Some r' => R r r'
  | None, None => True
  | _, _ => False
  end.

Definition same_but_answers (r r' : SurveyRecord) : Prop :=
  id r' = id r /\ topic r' = topic r /\ createdAt r' = createdAt r /\
  summary r' = summary r /\ chat r' = chat r.

Definition same_but_summary (r r' : SurveyRecord) : Prop :=
  id r' = id r /\ topic r' = topic r /\ createdAt r' = createdAt r /\
  answers r' = answers r /\ chat r' = chat r.

Definition same_but_chat (r r' : SurveyRecord) : Prop :=
  id r' = id r /\ topic r' = topic r /\ createdAt r' = createdAt r /\
  answers r' = answers r /\ summary r' = summary r.

(** A successful mutation of record [k]: every other record is kept and
    record [k] is related to its former value by [R]. *)
Definition frames (R : SurveyRecord -> SurveyRecord -> Prop) (k : string) (d d' : disk) : Prop :=
  (forall j, j <> k -> surveys (loadStore d') !! j = surveys (loadStore d) !! j) /\
  opt_rel R (surveys (loadStore d) !! k) (surveys (loadStore d') !! k).

(** Same observable behaviour of a store call on two files: the same
    return value, and the same file after it whenever it returned. *)
Definition same_call {A} (p q : outcome A * disk) : Prop :=
  fst p = fst q /\ (is_throw (fst p) = false -> snd p = snd q).

(** The empty defaults of [SubmitSurvayAction.handler]. *)
Definition empty_summary_data : SummaryData :=
  {| sd_summary := JStr EmptyString; sd_insights := JArr []; sd_recommendations := JArr [] |}.

(* ================================================================== *)
(** ** JavaScript string helpers *)

(** The ASCII characters of JavaScript's white space and line
    terminators ([\t \n \v \f \r] and space), as used by
    [String.prototype.trim] and the regular expression class [\s]; the
    non-ASCII ones (U+00A0, U+FEFF, ...) are outside this byte model. *)
Definition is_js_space (c : ascii) : bool :=
  match nat_of_ascii c with 9 | 10 | 11 | 12 | 13 | 32 => true | _ => false end.

Fixpoint drop_spaces (cs : list ascii) : list ascii :=
  match cs with
  | c :: r => if is_js_space c then drop_spaces r else cs
  | [] => []
  end.

(** [s.trim()]. *)
Definition js_trim (s : string) : string :=
  string_of_list_ascii (rev (drop_spaces (rev (drop_spaces (list_ascii_of_string s))))).

(* ================================================================== *)
(** ** More actions *)

(** [GetSurvayAction.handler] (GET /survay/:id). *)
Definition getSurvay_handler (surveyId : string) (d : disk) : outcome property * disk :=
  let '(record, d') := getSurvey surveyId d in
  match record with
  | None => (Throw (NotFound surveyId), d')
  | Some p => (Ok p, d')
  end.

(** [SurvayChatAction.handler] (POST /survay-chat).  [content] is
    [result.message.content] of the model call and [now] is
    [new Date().toISOString()]; the [history] parameter only feeds the
    prompt.  On an inherited property, [record.answers.map] throws.  The
    [appendChatTurns] call sits in [try/catch]: its outcome is dropped. *)
Definition survayChat_handler (surveyId message : string) (content : option string)
    (now : string) (d : disk) : outcome (string * string) * disk :=
  match fst (getSurvey surveyId d) with
  | None => (Throw (NotFound surveyId), d)
  | Some (Inherited _) => (Throw TypeError, d)
  | Some (OwnRecord _) =>
    let reply := match content with None => "(no reply)" | Some c => js_trim c end in
    let d' := snd (appendChatTurns surveyId
                     [{| role := RoleUser; content := message; ts := now |};
                      {| role := RoleAssistant; content := reply; ts := now |}] d) in
    (Ok (surveyId, reply), d')
  end.



(* ================================================================== *)
(** ** More of the client (src/cleint/index.ts, the module from line 294) *)

(** What the client shows after a step: a question rendered by
    [renderQuestion], or a screen. *)
Inductive view :=
  | ViewQuestion (q : StoredQuestion)
  | ViewScreen (s : screen).

(** [advanceQuestion(answer)].  [None] is the case the question screen
    never reaches: [questionQueue[currentQuestionIndex]] out of range.
    The test [currentQuestionIndex < questionQueue.length] is the lookup
    of that index succeeding. *)
Definition advanceQuestion (st : ClientState) (answer0 : string) : option (ClientState * view) :=
  match questionQueue st !! currentQuestionIndex st with
  | None => None
  | Some q =>
    let st' := {| currentSurveyId := currentSurveyId st; selectedTopic := selectedTopic st;
                  allAnswers := (allAnswers st ++ [{| question := q; answer := answer0 |}])%list;
                  chatHistory := chatHistory st; questionQueue := questionQueue st;
                  currentQuestionIndex := S (currentQuestionIndex st) |} in
    match questionQueue st' !! currentQuestionIndex st' with
    | Some q' => Some (st', ViewQuestion q')
    | None => Some (st', ViewScreen SDecision)
    end
  end.

(** The user answering [ans] in order, one [advanceQuestion] per answer. *)
Fixpoint answer_all (st : ClientState) (ans : list string) : option (ClientState * list view) :=
  match ans with
  | [] => Some (st, [])
  | a :: rest =>
    match advanceQuestion st a with
    | None => None
    | Some (st1, v) =>
      match answer_all st1 rest with
      | None => None
      | Some (st2, vs) => Some (st2, v :: vs)
      end
    end
  end.

(** [startNewRound(isFirst)], given the result of [fetchQuestions()]
    ([None] when it throws).  The boolean is [showError] being called.
    [currentSurveyId] is assigned before the empty-batch check. *)
Definition startNewRound (isFirst : bool) (fetched : option (string * list StoredQuestion))
    (st : ClientState) : ClientState * view * bool :=
  let fallback := ViewScreen (if isFirst then SSplash else SDecision) in
  match fetched with
  | None => (st, fallback, true)
  | Some (sid, qs) =>
    let st1 := {| currentSurveyId := sid; selectedTopic := selectedTopic st;
                  allAnswers := allAnswers st; chatHistory := chatHistory st;
                  questionQueue := questionQueue st;
                  currentQuestionIndex := currentQuestionIndex st |} in
    match qs with
    | [] => (st1, fallback, true)
    | q0 :: _ =>
      ({| currentSurveyId := sid; selectedTopic := selectedTopic st;
          allAnswers := allAnswers st; chatHistory := chatHistory st;
          questionQueue := qs; currentQuestionIndex := 0 |}, ViewQuestion q0, false)
    end
  end.



(** The characters [raw.split(/[.()\d]/)] splits on. *)
Definition is_label_sep (c : ascii) : bool :=
  Ascii.eqb c "." || Ascii.eqb c "(" || Ascii.eqb c ")" || JsonParse.is_digit c.

(** [raw.split(/[.()\d]/)[0]]: the text before the first separator. *)
Fixpoint label_head (cs : list ascii) : list ascii :=
  match cs with
  | [] => []
  | c :: r => if is_label_sep c then [] else c :: label_head r
  end.

(** [cleanLabel(raw)]; [None] is [null] or [undefined]. *)
Definition cleanLabel (raw : option string) : string :=
  match raw with
  | None => EmptyString
  | Some s =>
    if String.eqb s EmptyString then EmptyString
    else
      let trimmed := js_trim (string_of_list_ascii (label_head (list_ascii_of_string s))) in
      if Nat.ltb 0 (String.length trimmed) then trimmed else s
  end.

(* ================================================================== *)
(** ** Store invariants *)

(** Every record is stored under its own id. *)
Definition ids_match (st : Store) : Prop :=
  map_Forall (fun k r => id r = k) (surveys st).

(** Between two files, no record disappears and every record's answers
    and chat only grow at their end. *)
Definition grows (d d' : disk) : Prop :=
  forall k r, surveys (loadStore d) !! k = Some r ->
  exists r', surveys (loadStore d') !! k = Some r' /\
             answers r `prefix_of` answers r' /\ chat r `prefix_of` chat r'.

(* ================================================================== *)
(** ** Fields of a parsed model output, as the spec reads them *)



(* ================================================================== *)
(** ** Sample data *)

Definition sample_uuid : string := "123e4567-e89b-42d3-a456-426614174000".

Definition sample_q1 : StoredQuestion :=
  {| q_id := "q1"; q_type := QBoolean; label := "Do you sleep 8 hours?";
     minLabel := None; maxLabel := None |}.

Definition sample_q2 : StoredQuestion :=
  {| q_id := "q2"; q_type := QScale; label := "How rested do you feel?";
     minLabel := Some (Some "Exhausted"); maxLabel := Some None |}.

Definition sample_a1 : StoredAnswer := {| question := sample_q1; answer := "yes" |}.
Definition sample_a2 : StoredAnswer := {| question := sample_q2; answer := "7" |}.

Definition sample_summary : StoredSummary :=
  {| ss_summary := "Rested overall."; insights := ["Sleeps 8 hours"];
     recommendations := ["Keep the schedule"] |}.

Definition sample_record : SurveyRecord :=
  {| id := sample_uuid; topic := "sleep quality"; createdAt := "2026-01-01T00:00:00.000Z";
     answers := [sample_a1]; summary := None; chat := [] |}.

Definition sample_disk : disk := Saved {| surveys := <[sample_uuid := sample_record]> ∅ |}.

Definition sample_client : ClientState :=
  {| currentSurveyId := EmptyString; selectedTopic := EmptyString; allAnswers := [];
     chatHistory := []; questionQueue := [sample_q1]; currentQuestionIndex := 1 |}.

(** A client at the start of a two-question round. *)
Definition sample_round : ClientState :=
  {| currentSurveyId := sample_uuid; selectedTopic := "sleep quality"; allAnswers := [];
     chatHistory := []; questionQueue := [sample_q1; sample_q2]; currentQuestionIndex := 0 |}.

(** A store call that always throws, standing for a failed write. *)
Definition failing_setAnswers (surveyId : string) (_ : list StoredAnswer) (d : disk)
    : outcome unit * disk := (Throw (NotFound surveyId), d).

Definition failing_persistSummary (surveyId : string) (_ : SummaryData) (d : disk)
    : outcome unit * disk := (Throw (NotFound surveyId), d).

(* ================================================================== *)
(** ** Evaluation on small inputs *)
(** [q s] is the JSON string literal of [s] (no escapes inside). *)
Definition q (s : string) : string :=
  String JsonParse.quote_char (s ++ String JsonParse.quote_char EmptyString).

Example json_parse_obj :
  json_parse ("{ " ++ q "questions" ++ ": [1, -2.5e3, true, null, " ++ q "a\nb" ++ "] }") =
  Some (JObj [("questions", JArr [JNum "1"; JNum "-2.5e3"; JBool true; JNull;
                                  JStr ("a" ++ String (ascii_of_nat 10) "b")])]).
Proof. reflexivity. Qed.

Example json_parse_bad1 : json_parse "{" = None.
Proof. reflexivity. Qed.

Example json_parse_bad2 : json_parse "Sure! {}" = None.
Proof. reflexivity. Qed.

Example json_parse_bad3 : json_parse "01" = None.
Proof. reflexivity. Qed.

Example json_parse_null : json_parse " null " = Some JNull.
Proof. reflexivity. Qed.

Example is_uuid_ok : is_uuid "123e4567-e89b-42d3-a456-426614174000" = true.
Proof. reflexivity. Qed.

Example is_uuid_proto : is_uuid "__proto__" = false.
Proof. reflexivity. Qed.

Example getSurvey_toString : fst (getSurvey "toString" NoFile) = Some (Inherited "toString").
Proof. reflexivity. Qed.

Example survay_questions_missing : survay_questions (Some ("{" ++ q "other" ++ ": 1}")) = Ok (JArr []).
Proof. reflexivity. Qed.

Example survay_questions_null : survay_questions (Some "null") = Throw TypeError.
Proof. reflexivity. Qed.


(* ================================================================== *)
(** ** Store lemmas *)

Lemma surveys_get_own (st : Store) k r :
  surveys st !! k = Some r -> surveys_get st k = Some (OwnRecord r).
Proof. intros H. unfold surveys_get. by rewrite H. Qed.

Lemma surveys_get_inherited (st : Store) k n :
  surveys_get st k = Some (Inherited n) -> surveys st !! k = None.
Proof. unfold surveys_get. destruct (surveys st !! k); [discriminate | done]. Qed.

Lemma surveys_get_own_inv (st : Store) k r :
  surveys_get st k = Some (OwnRecord r) -> surveys st !! k = Some r.
Proof.
  unfold surveys_get. destruct (surveys st !! k); [congruence |].
  case_decide; discriminate.
Qed.

Lemma appendAnswers_own (d : disk) k r ans :
  surveys (loadStore d) !! k = Some r ->
  appendAnswers k ans d =
  (Ok tt, Saved {| surveys := <[k := with_answers r (answers r ++ ans)%list]> (surveys (loadStore d)) |}).
Proof. intros H. unfold appendAnswers. by rewrite (surveys_get_own _ _ _ H). Qed.

Lemma saveSummary_own (d : disk) k r s :
  surveys (loadStore d) !! k = Some r ->
  saveSummary k s d =
  (Ok tt, Saved {| surveys := <[k := with_summary r (Some s)]> (surveys (loadStore d)) |}).
Proof. intros H. unfold saveSummary. by rewrite (surveys_get_own _ _ _ H). Qed.

Lemma is_uuid_not_proto uuid : is_uuid uuid = true -> String.eqb uuid "__proto__" = false.
Proof.
  intros H. destruct (String.eqb_spec uuid "__proto__") as [->|]; [discriminate | done].
Qed.

(** Away from the names of [Object.prototype], an unknown id makes the
    three mutations throw NotFound and leaves the file as it was. *)
Lemma store_ops_unknown_plain_id (d : disk) k ans s turns :
  surveys (loadStore d) !! k = None -> k ∉ object_prototype_keys ->
  appendAnswers k ans d = (Throw (NotFound k), d) /\
  saveSummary k s d = (Throw (NotFound k), d) /\
  appendChatTurns k turns d = (Throw (NotFound k), d).
Proof.
  intros Hk Hp.
  unfold appendAnswers, saveSummary, appendChatTurns, surveys_get.
  rewrite Hk. by rewrite (decide_False _ _ Hp).
Qed.

(* ================================================================== *)
(** ** Claims about the store *)

(** C2 (code_bug).  The lookup [store.surveys[surveyId]] also sees the
    properties of [Object.prototype]: for the id ["constructor"], present
    in no store, [saveSummary] returns normally and writes the file (here
    it creates it), while [appendAnswers] and [appendChatTurns] throw a
    TypeError instead of NotFound. *)
Theorem unknown_id_constructor (s : StoredSummary) (ans : list StoredAnswer) (turns : list ChatTurn) :
  surveys (loadStore NoFile) !! "constructor" = None /\
  saveSummary "constructor" s NoFile = (Ok tt, Saved empty_store) /\
  appendAnswers "constructor" ans NoFile = (Throw TypeError, NoFile) /\
  appendChatTurns "constructor" turns NoFile = (Throw TypeError, NoFile).
Proof. repeat split. Qed.

(** C3.  A sequence of [appendAnswers] calls on a stored id succeeds at
    every call and leaves the original answers followed by the batches
    in call order; the length is the original length plus the sum of
    the batch lengths. *)
Theorem appendAnswers_calls_concat (surveyId : string) (bs : list (list StoredAnswer))
    (d : disk) (r : SurveyRecord) :
  surveys (loadStore d) !! surveyId = Some r ->
  let '(outs, d') := appendAnswers_calls surveyId bs d in
  Forall (fun o => o = Ok tt) outs /\
  exists r', surveys (loadStore d') !! surveyId = Some r' /\
             answers r' = (answers r ++ List.concat bs)%list /\
             List.length (answers r') = List.length (answers r) + sum_list (map List.length bs).
Proof.
  revert d r. induction bs as [|b bs IH]; intros d r Hr; simpl.
  - split; [constructor |]. exists r. rewrite app_nil_r. split; [done | split; [done | lia]].
  - rewrite (appendAnswers_own _ _ _ _ Hr).
    specialize (IH (Saved {| surveys := <[surveyId := with_answers r (answers r ++ b)%list]>
                                         (surveys (loadStore d)) |})
                   (with_answers r (answers r ++ b)%list)).
    simpl in IH. rewrite lookup_insert_eq in IH. specialize (IH eq_refl).
    destruct (appendAnswers_calls surveyId bs _) as [os d2].
    destruct IH as [Hos [r' [Hl [Ha Hlen]]]].
    split; [by constructor |].
    exists r'. split; [done |]. split.
    + rewrite Ha. simpl. by rewrite app_assoc.
    + rewrite Hlen. simpl. rewrite length_app. lia.
Qed.

(** C4.  Round trip: after [createSurvey topic] (id from randomUUID) and
    [appendAnswers(id, [(q1,"yes"); (q2,"7")])], [getSurvey(id)] is a
    record with exactly these answers, the topic, no summary and no chat. *)
Theorem create_append_get (topic0 uuid now : string) (d : disk) (q1 q2 : StoredQuestion) :
  is_uuid uuid = true ->
  let a := [{| question := q1; answer := "yes" |}; {| question := q2; answer := "7" |}] in
  let '(r0, d1) := createSurvey topic0 uuid now d in
  let '(o, d2) := appendAnswers (id r0) a d1 in
  o = Ok tt /\
  exists r, fst (getSurvey (id r0) d2) = Some (OwnRecord r) /\
            answers r = a /\ topic r = topic0 /\ summary r = None /\ chat r = [].
Proof.
  intros Hu. simpl. unfold createSurvey. rewrite (is_uuid_not_proto _ Hu). simpl.
  rewrite (appendAnswers_own (Saved {| surveys := <[uuid := _]> (surveys (loadStore d)) |}) uuid
             {| id := uuid; topic := topic0; createdAt := now; answers := []; summary := None; chat := [] |});
    [| simpl; apply lookup_insert_eq].
  split; [done |].
  eexists. unfold getSurvey, surveys_get. simpl. rewrite lookup_insert_eq.
  split; [reflexivity |]. simpl. done.
Qed.

(** C5.  Two [saveSummary] calls on a stored id both succeed and leave
    exactly the second summary, the rest of the record untouched. *)
Theorem saveSummary_twice (k : string) (s1 s2 : StoredSummary) (d : disk) (r : SurveyRecord) :
  surveys (loadStore d) !! k = Some r ->
  let '(o1, d1) := saveSummary k s1 d in
  let '(o2, d2) := saveSummary k s2 d1 in
  o1 = Ok tt /\ o2 = Ok tt /\ surveys (loadStore d2) !! k = Some (with_summary r (Some s2)).
Proof.
  intros Hr. rewrite (saveSummary_own _ _ _ _ Hr).
  rewrite (saveSummary_own (Saved _) k (with_summary r (Some s1)));
    [| simpl; apply lookup_insert_eq].
  split; [done | split; [done |]]. simpl. by rewrite lookup_insert_eq.
Qed.

(** C8.  A missing file and a file [JSON.parse] rejects are both read as
    the empty store: every store call then behaves as on a file holding
    [{ surveys: {} }], and none of them fails because of the file. *)
Theorem loadStore_fails_open (raw : string) (d : disk) :
  d = NoFile \/ d = Corrupt raw ->
  loadStore d = empty_store /\
  (forall k ans, same_call (appendAnswers k ans d) (appendAnswers k ans (Saved empty_store))) /\
  (forall k s, same_call (saveSummary k s d) (saveSummary k s (Saved empty_store))) /\
  (forall k turns, same_call (appendChatTurns k turns d) (appendChatTurns k turns (Saved empty_store))) /\
  (forall k, fst (getSurvey k d) = fst (getSurvey k (Saved empty_store))) /\
  fst (listSurveys d) = [] /\
  (forall t u n, createSurvey t u n d = createSurvey t u n (Saved empty_store)).
Proof.
  intros Hd.
  assert (Hl : loadStore d = empty_store) by (destruct Hd as [-> | ->]; done).
  split; [done |].
  unfold same_call, appendAnswers, saveSummary, appendChatTurns, getSurvey,
    listSurveys, createSurvey.
  rewrite Hl. simpl.
  split; [intros k ans; destruct (surveys_get empty_store k) as [[]|]; done |].
  split; [intros k s; destruct (surveys_get empty_store k) as [[]|]; done |].
  split; [intros k t; destruct (surveys_get empty_store k) as [[]|]; done |].
  split; [done |].
  split; [by rewrite map_to_list_empty | done].
Qed.

(** C9 (code_bug).  [getSurvey] reads [store.surveys[id] ?? null]: for
    the id ["constructor"], created by no one, it returns the inherited
    [Object] constructor, neither a record nor [null]. *)
Theorem getSurvey_constructor :
  surveys (loadStore NoFile) !! "constructor" = None /\
  getSurvey "constructor" NoFile = (Some (Inherited "constructor"), NoFile).
Proof. split; reflexivity. Qed.

(** What [getSurvey] does hold: it never writes, and off the names of
    [Object.prototype] it returns the stored record or [null]. *)
Lemma getSurvey_plain_id (k : string) (d : disk) :
  k ∉ object_prototype_keys ->
  snd (getSurvey k d) = d /\
  fst (getSurvey k d) = OwnRecord <$> surveys (loadStore d) !! k.
Proof.
  intros Hp. split; [done |]. simpl. unfold surveys_get.
  destruct (surveys (loadStore d) !! k); [done |]. by rewrite (decide_False _ _ Hp).
Qed.

(** C10.  Frame: a successful [appendAnswers], [saveSummary] or
    [appendChatTurns] on id [k] changes no other record, and in record
    [k] only the answers, the summary or the chat respectively. *)
Theorem store_mutations_frame (k : string) :
  (forall ans d d', appendAnswers k ans d = (Ok tt, d') -> frames same_but_answers k d d') /\
  (forall s d d', saveSummary k s d = (Ok tt, d') -> frames same_but_summary k d d') /\
  (forall turns d d', appendChatTurns k turns d = (Ok tt, d') -> frames same_but_chat k d d').
Proof.
  split; [| split]; intros x d d';
    unfold appendAnswers, saveSummary, appendChatTurns;
    destruct (surveys_get (loadStore d) k) as [[r|n]|] eqn:E; intros H;
    inversion H; subst; clear H; unfold frames; simpl.
  - apply surveys_get_own_inv in E. split.
    + intros j Hj. by rewrite lookup_insert_ne.
    + rewrite E, lookup_insert_eq. simpl. unfold same_but_answers. done.
  - apply surveys_get_own_inv in E. split.
    + intros j Hj. by rewrite lookup_insert_ne.
    + rewrite E, lookup_insert_eq. simpl. unfold same_but_summary. done.
  - apply surveys_get_inherited in E. split; [done |]. by rewrite E.
  - apply surveys_get_own_inv in E. split.
    + intros j Hj. by rewrite lookup_insert_ne.
    + rewrite E, lookup_insert_eq. simpl. unfold same_but_chat. done.
Qed.

(* ================================================================== *)
(** ** Claims about the client and the actions *)

(** C6.  [resumeSurvey] on a fetched record loads its id and answers,
    keeps the question queue and cursor as they were (no round is
    replayed), and goes to the results screen when the record has a
    summary, to the decision screen when it has answers but no summary,
    and otherwise starts a new first round. *)
Theorem resumeSurvey_rule (r : SurveyRecord) (st : ClientState) :
  let '(st', next) := resumeSurvey (Some r) st in
  currentSurveyId st' = id r /\ allAnswers st' = answers r /\
  questionQueue st' = questionQueue st /\ currentQuestionIndex st' = currentQuestionIndex st /\
  (summary r <> None -> next = ShowScreen SResults) /\
  (summary r = None -> answers r <> [] -> next = ShowScreen SDecision) /\
  (summary r = None -> answers r = [] -> next = StartNewRound true).
Proof.
  unfold resumeSurvey. simpl.
  destruct (summary r) as [s|]; simpl.
  - repeat split; intros; congruence.
  - destruct (answers r) as [|a rest]; simpl; repeat split; intros; congruence.
Qed.

Lemma survay_handler_no_answers sa topic0 surveyId uuid now content d :
  exists sid d2,
    survay_handler sa topic0 surveyId [] uuid now content d =
    (match survay_questions content with Ok q => Ok (sid, q) | Throw e => Throw e end, d2).
Proof.
  unfold survay_handler.
  destruct surveyId as [s|]; [destruct (String.eqb s EmptyString)|]; simpl;
    do 2 eexists; destruct (survay_questions content); reflexivity.
Qed.


(** C7.  Whenever the summarization output yields [data], the handler
    returns [(surveyId, data)], whatever the two store calls do: both
    may throw or write anything, the returned value is the same. *)
Theorem submit_returns_despite_persistence sa ps (surveyId : string)
    (ans : list StoredAnswer) (content : option string) (d : disk) (data : SummaryData) :
  submit_summary content = Ok data ->
  fst (submit_handler sa ps surveyId ans content d) = Ok (surveyId, data).
Proof. intros H. unfold submit_handler. by rewrite H. Qed.







(* ================================================================== *)
(** ** Witnesses: the theorems applied at concrete inputs *)

Lemma appendAnswers_calls_concat_witness :
  surveys (loadStore sample_disk) !! sample_uuid = Some sample_record /\
  let '(outs, d') := appendAnswers_calls sample_uuid [[sample_a2]; []; [sample_a1; sample_a2]] sample_disk in
  Forall (fun o => o = Ok tt) outs /\
  exists r', surveys (loadStore d') !! sample_uuid = Some r' /\
             answers r' = (answers sample_record ++ List.concat [[sample_a2]; []; [sample_a1; sample_a2]])%list /\
             List.length (answers r') =
               List.length (answers sample_record) + sum_list (map List.length [[sample_a2]; []; [sample_a1; sample_a2]]).
Proof.
  split; [reflexivity |].
  apply (appendAnswers_calls_concat sample_uuid _ sample_disk sample_record). reflexivity.
Defined.

Lemma create_append_get_witness :
  is_uuid sample_uuid = true /\
  let a := [{| question := sample_q1; answer := "yes" |}; {| question := sample_q2; answer := "7" |}] in
  let '(r0, d1) := createSurvey "sleep quality" sample_uuid "2026-01-01T00:00:00.000Z" NoFile in
  let '(o, d2) := appendAnswers (id r0) a d1 in
  o = Ok tt /\
  exists r, fst (getSurvey (id r0) d2) = Some (OwnRecord r) /\
            answers r = a /\ topic r = "sleep quality" /\ summary r = None /\ chat r = [].
Proof.
  split; [reflexivity |].
  apply (create_append_get "sleep quality" sample_uuid "2026-01-01T00:00:00.000Z" NoFile
           sample_q1 sample_q2).
  reflexivity.
Defined.

Lemma saveSummary_twice_witness :
  surveys (loadStore sample_disk) !! sample_uuid = Some sample_record /\
  let '(o1, d1) := saveSummary sample_uuid sample_summary sample_disk in
  let '(o2, d2) := saveSummary sample_uuid
                     {| ss_summary := "Tired."; insights := []; recommendations := [] |} d1 in
  o1 = Ok tt /\ o2 = Ok tt /\
  surveys (loadStore d2) !! sample_uuid =
    Some (with_summary sample_record (Some {| ss_summary := "Tired."; insights := []; recommendations := [] |})).
Proof.
  split; [reflexivity |].
  apply (saveSummary_twice sample_uuid sample_summary _ sample_disk sample_record).
  reflexivity.
Defined.

Lemma resumeSurvey_rule_witness :
  summary (with_summary sample_record (Some sample_summary)) <> None /\
  snd (resumeSurvey (Some (with_summary sample_record (Some sample_summary))) sample_client)
    = ShowScreen SResults.
Proof.
  pose proof (resumeSurvey_rule (with_summary sample_record (Some sample_summary)) sample_client) as H.
  simpl in H. destruct H as (_ & _ & _ & _ & H & _).
  split; [discriminate |]. apply H. discriminate.
Defined.

Lemma submit_returns_despite_persistence_witness :
  submit_summary (Some "{}") = Ok empty_summary_data /\
  fst (submit_handler failing_setAnswers failing_persistSummary sample_uuid [sample_a1]
         (Some "{}") NoFile) = Ok (sample_uuid, empty_summary_data).
Proof.
  split; [reflexivity |].
  apply submit_returns_despite_persistence. reflexivity.
Defined.

Lemma loadStore_fails_open_witness :
  (Corrupt "{ broken" = NoFile \/ Corrupt "{ broken" = Corrupt "{ broken") /\
  loadStore (Corrupt "{ broken") = empty_store.
Proof.
  split; [right; reflexivity |].
  apply (proj1 (loadStore_fails_open "{ broken" (Corrupt "{ broken") (or_intror eq_refl))).
Defined.

Lemma store_mutations_frame_witness :
  appendAnswers sample_uuid [sample_a2] sample_disk
    = (Ok tt, snd (appendAnswers sample_uuid [sample_a2] sample_disk)) /\
  frames same_but_answers sample_uuid sample_disk (snd (appendAnswers sample_uuid [sample_a2] sample_disk)).
Proof.
  split; [reflexivity |].
  apply (proj1 (store_mutations_frame sample_uuid) [sample_a2]). reflexivity.
Defined.


(* ================================================================== *)
(** ** Further properties of the store *)

(** Every store operation keeps each record under its own id. *)
Theorem ids_match_preserved (d : disk) :
  ids_match (loadStore d) ->
  (forall k ans, ids_match (loadStore (snd (appendAnswers k ans d)))) /\
  (forall k s, ids_match (loadStore (snd (saveSummary k s d)))) /\
  (forall k turns, ids_match (loadStore (snd (appendChatTurns k turns d)))) /\
  (forall topic0 uuid now, ids_match (loadStore (snd (createSurvey topic0 uuid now d)))).
Proof.
  intros H. unfold ids_match in *.
  split; [| split; [| split]].
  - intros k ans. unfold appendAnswers.
    destruct (surveys_get (loadStore d) k) as [[r|n]|] eqn:E; simpl; try done.
    apply surveys_get_own_inv in E. apply map_Forall_insert_2; [| done].
    simpl. exact (map_Forall_lookup_1 _ _ _ _ H E).
  - intros k s. unfold saveSummary.
    destruct (surveys_get (loadStore d) k) as [[r|n]|] eqn:E; simpl; try done.
    apply surveys_get_own_inv in E. apply map_Forall_insert_2; [| done].
    simpl. exact (map_Forall_lookup_1 _ _ _ _ H E).
  - intros k t. unfold appendChatTurns.
    destruct (surveys_get (loadStore d) k) as [[r|n]|] eqn:E; simpl; try done.
    apply surveys_get_own_inv in E. apply map_Forall_insert_2; [| done].
    simpl. exact (map_Forall_lookup_1 _ _ _ _ H E).
  - intros t u n. unfold createSurvey. simpl.
    destruct (String.eqb u "__proto__"); [done |].
    by apply map_Forall_insert_2.
Qed.

(** No store operation deletes a record or rewrites the answers or chat
    already stored: they only grow at their end.  For [createSurvey] this
    needs the new id to be unused (it overwrites an existing record). *)
Theorem store_calls_grow (d : disk) :
  (forall k ans, grows d (snd (appendAnswers k ans d))) /\
  (forall k s, grows d (snd (saveSummary k s d))) /\
  (forall k turns, grows d (snd (appendChatTurns k turns d))) /\
  (forall topic0 uuid now, surveys (loadStore d) !! uuid = None ->
     grows d (snd (createSurvey topic0 uuid now d))).
Proof.
  split; [| split; [| split]].
  - intros k ans j r0 Hj. unfold appendAnswers.
    destruct (surveys_get (loadStore d) k) as [[r|n]|] eqn:E; simpl; try by exists r0.
    apply surveys_get_own_inv in E. destruct (decide (j = k)) as [->|Hne].
    + rewrite lookup_insert_eq. eexists; split; [done |]. simpl.
      rewrite E in Hj. injection Hj as <-. split; [by apply prefix_app_r | done].
    + rewrite lookup_insert_ne by done. by exists r0.
  - intros k s j r0 Hj. unfold saveSummary.
    destruct (surveys_get (loadStore d) k) as [[r|n]|] eqn:E; simpl; try by exists r0.
    apply surveys_get_own_inv in E. destruct (decide (j = k)) as [->|Hne].
    + rewrite lookup_insert_eq. eexists; split; [done |]. simpl.
      rewrite E in Hj. by injection Hj as <-.
    + rewrite lookup_insert_ne by done. by exists r0.
  - intros k t j r0 Hj. unfold appendChatTurns.
    destruct (surveys_get (loadStore d) k) as [[r|n]|] eqn:E; simpl; try by exists r0.
    apply surveys_get_own_inv in E. destruct (decide (j = k)) as [->|Hne].
    + rewrite lookup_insert_eq. eexists; split; [done |]. simpl.
      rewrite E in Hj. injection Hj as <-. split; [done | by apply prefix_app_r].
    + rewrite lookup_insert_ne by done. by exists r0.
  - intros t u n Hu j r0 Hj. unfold createSurvey. simpl.
    destruct (String.eqb u "__proto__"); [by exists r0 |].
    rewrite lookup_insert_ne by congruence. by exists r0.
Qed.

(** [createSurvey] with an id from [crypto.randomUUID()] returns a fresh
    record (given topic, empty answers and chat, no summary), stores it
    under that id, keeps every other record, and grows the store by one
    when the id was unused. *)
Theorem createSurvey_spec (topic0 uuid now : string) (d : disk) :
  is_uuid uuid = true ->
  let '(r, d') := createSurvey topic0 uuid now d in
  id r = uuid /\ topic r = topic0 /\ answers r = [] /\ summary r = None /\ chat r = [] /\
  surveys (loadStore d') !! uuid = Some r /\
  (forall k, k <> uuid -> surveys (loadStore d') !! k = surveys (loadStore d) !! k) /\
  (surveys (loadStore d) !! uuid = None ->
     size (surveys (loadStore d')) = S (size (surveys (loadStore d)))).
Proof.
  intros Hu. unfold createSurvey. rewrite (is_uuid_not_proto _ Hu). simpl.
  do 5 (split; [done |]). split; [apply lookup_insert_eq |]. split.
  - intros k Hk. by rewrite lookup_insert_ne.
  - intros Hn. by apply map_size_insert_None.
Qed.

(** On a store whose records sit under their own ids, [listSurveys]
    lists exactly one [(id, topic, createdAt)] per stored record. *)
Theorem listSurveys_exact (d : disk) :
  ids_match (loadStore d) ->
  (forall i t c, (i, t, c) ∈ fst (listSurveys d) <->
     exists r, surveys (loadStore d) !! i = Some r /\ topic r = t /\ createdAt r = c) /\
  List.length (fst (listSurveys d)) = size (surveys (loadStore d)).
Proof.
  intros H. split.
  - intros i t c. simpl. rewrite list_elem_of_In, in_map_iff. split.
    + intros [[k r] [Heq Hin]]. apply list_elem_of_In, elem_of_map_to_list in Hin.
      pose proof (map_Forall_lookup_1 _ _ _ _ H Hin) as Hk. simpl in Hk.
      injection Heq as <- <- <-. subst k. by exists r.
    + intros [r [Hr [<- <-]]]. exists (i, r).
      pose proof (map_Forall_lookup_1 _ _ _ _ H Hr) as Hk. simpl in Hk.
      rewrite Hk. split; [done |]. by apply list_elem_of_In, elem_of_map_to_list.
  - simpl. by rewrite length_map, length_map_to_list.
Qed.

(** GET /survay/:id off the names of [Object.prototype]: NotFound when no
    record is stored under the id, the record otherwise; no write. *)
Theorem getSurvay_handler_plain_id (k : string) (d : disk) :
  k ∉ object_prototype_keys ->
  getSurvay_handler k d =
    match surveys (loadStore d) !! k with
    | Some r => (Ok (OwnRecord r), d)
    | None => (Throw (NotFound k), d)
    end.
Proof.
  intros Hp. unfold getSurvay_handler, getSurvey, surveys_get.
  destruct (surveys (loadStore d) !! k); [done |]. by rewrite (decide_False _ _ Hp).
Qed.

(* ================================================================== *)
(** ** Further properties of the actions *)

(** POST /survay without a survey id (absent or empty) and without
    answers creates a fresh survey under [uuid] and writes it to the file
    before the model output is looked at: the handler answers with
    [uuid] when the output yields questions, and the new empty survey
    stays on disk when it throws. *)
Theorem survay_handler_creates_survey sa (topic0 : string) (surveyId : option string)
    (uuid now : string) (content : option string) (d : disk) :
  surveyId = None \/ surveyId = Some EmptyString ->
  is_uuid uuid = true ->
  let '(o, d') := survay_handler sa topic0 surveyId [] uuid now content d in
  o = match survay_questions content with Ok q => Ok (uuid, q) | Throw e => Throw e end /\
  surveys (loadStore d') !! uuid =
    Some {| id := uuid; topic := topic0; createdAt := now;
            answers := []; summary := None; chat := [] |} /\
  (forall k, k <> uuid -> surveys (loadStore d') !! k = surveys (loadStore d) !! k).
Proof.
  intros Hs Hu. unfold survay_handler, createSurvey.
  rewrite (is_uuid_not_proto _ Hu).
  destruct Hs as [-> | ->]; simpl;
    destruct (survay_questions content); simpl; (split; [done |]);
    (split; [apply lookup_insert_eq |]);
    intros k Hk; by rewrite lookup_insert_ne.
Qed.

(** POST /survay with a non-empty survey id and no answers never reads
    the store: the id is echoed back whether or not a survey exists under
    it, and the file is left as it was. *)
Theorem survay_handler_echoes_id sa (topic0 s : string) (uuid now : string)
    (content : option string) (d : disk) :
  s <> EmptyString ->
  survay_handler sa topic0 (Some s) [] uuid now content d =
    (match survay_questions content with Ok q => Ok (s, q) | Throw e => Throw e end, d).
Proof.
  intros Hs. unfold survay_handler. apply String.eqb_neq in Hs. rewrite Hs. simpl.
  by destruct (survay_questions content).
Qed.

(** POST /survay with answers: when [setAnswers] throws, the handler
    throws the same error, whatever the model output.  With a non-empty
    survey id the call is on that id and the file as read; with an absent
    or empty id it is on the id of the survey [createSurvey] just wrote,
    and the file that holds it (unlike POST /submit-survay, which
    swallows store errors). *)
Theorem survay_handler_setAnswers_error sa (topic0 : string) (surveyId : option string)
    (ans : list StoredAnswer) (uuid now : string) (content : option string) (d d2 : disk)
    (e : js_error) :
  ans <> [] ->
  (forall s, surveyId = Some s -> s <> EmptyString -> sa s ans d = (Throw e, d2) ->
     survay_handler sa topic0 surveyId ans uuid now content d = (Throw e, d2)) /\
  (surveyId = None \/ surveyId = Some EmptyString ->
     sa uuid ans (snd (createSurvey topic0 uuid now d)) = (Throw e, d2) ->
     survay_handler sa topic0 surveyId ans uuid now content d = (Throw e, d2)).
Proof.
  intros Ha. destruct ans as [|a rest]; [done |]. split.
  - intros s -> Hs Hsa. unfold survay_handler. apply String.eqb_neq in Hs. rewrite Hs. simpl.
    by rewrite Hsa.
  - intros Hs Hsa. unfold survay_handler.
    destruct Hs as [-> | ->]; simpl; unfold createSurvey in Hsa |- *; simpl in Hsa |- *;
      by rewrite Hsa.
Qed.

(** POST /survay-chat for an id off the names of [Object.prototype] with
    no stored survey: NotFound, and nothing is written. *)
Theorem survayChat_unknown_id (k message : string) (content : option string) (now : string)
    (d : disk) :
  k ∉ object_prototype_keys -> surveys (loadStore d) !! k = None ->
  survayChat_handler k message content now d = (Throw (NotFound k), d).
Proof.
  intros Hp Hn. unfold survayChat_handler, getSurvey, surveys_get. simpl.
  rewrite Hn. by rewrite (decide_False _ _ Hp).
Qed.






(** POST /submit-survay whose model output does not yield summary data:
    the handler throws, but the answers written by [setAnswers] before
    the model call stay in the file, and [persistSummary] is not
    called. *)
Theorem submit_handler_keeps_answers_on_error sa ps (surveyId : string)
    (ans : list StoredAnswer) (content : option string) (d : disk) (e : js_error) :
  ans <> [] -> submit_summary content = Throw e ->
  submit_handler sa ps surveyId ans content d = (Throw e, snd (sa surveyId ans d)).
Proof.
  intros Ha He. unfold submit_handler. rewrite He. by destruct ans.
Qed.

(* ================================================================== *)
(** ** Further properties of the client *)

(** Answering the rest of a round, one answer per remaining question:
    each answer is recorded with its question, the questions are shown
    in queue order, then the decision screen; the cursor ends past the
    queue and nothing else changes. *)
Theorem answer_all_round (st : ClientState) (ans : list string) :
  ans <> [] ->
  currentQuestionIndex st + List.length ans = List.length (questionQueue st) ->
  exists st',
    answer_all st ans =
      Some (st', (map ViewQuestion (drop (S (currentQuestionIndex st)) (questionQueue st))
                  ++ [ViewScreen SDecision])%list) /\
    allAnswers st' =
      (allAnswers st ++ zip_with (fun q0 a => {| question := q0; answer := a |})
                        (drop (currentQuestionIndex st) (questionQueue st)) ans)%list /\
    currentQuestionIndex st' = List.length (questionQueue st) /\
    questionQueue st' = questionQueue st /\ currentSurveyId st' = currentSurveyId st /\
    selectedTopic st' = selectedTopic st /\ chatHistory st' = chatHistory st.
Proof.
  revert st. induction ans as [|a rest IH]; intros st Hne Hlen; [done |].
  destruct st as [sid tp aa ch qs i]. simpl in *.
  destruct (lookup_lt_is_Some_2 qs i) as [q0 Hq0]; [lia |].
  unfold advanceQuestion. simpl. rewrite Hq0. simpl.
  rewrite (drop_S _ _ _ Hq0).
  destruct rest as [|b rest'].
  - rewrite (lookup_ge_None_2 qs (S i)) by (simpl in Hlen; lia).
    rewrite (drop_ge qs (S i)) by (simpl in Hlen; lia).
    eexists; split; [reflexivity |]. simpl in *. repeat split; (done || lia).
  - destruct (lookup_lt_is_Some_2 qs (S i)) as [q1 Hq1]; [simpl in Hlen; lia |].
    rewrite Hq1.
    destruct (IH {| currentSurveyId := sid; selectedTopic := tp;
                    allAnswers := (aa ++ [{| question := q0; answer := a |}])%list;
                    chatHistory := ch; questionQueue := qs; currentQuestionIndex := S i |})
      as (st' & Hrun & Hans & Hidx & Hq & Hs & Ht & Hc); [done | simpl in *; lia |].
    simpl in *. rewrite Hrun. exists st'.
    split; [by rewrite (drop_S _ _ _ Hq1) |]. rewrite Hans, <- app_assoc.
    repeat split; done.
Qed.

(** [startNewRound] never touches the answers, the chat or the topic.
    When fetching fails or yields no question it shows the splash (first
    round) or decision screen with an error and keeps the queue and
    cursor; otherwise it shows the first fetched question with the
    cursor on it.  Any successful fetch adopts the returned survey id,
    also an empty batch. *)
Theorem startNewRound_outcome (isFirst : bool) (fetched : option (string * list StoredQuestion))
    (st : ClientState) :
  let '(st', v, err) := startNewRound isFirst fetched st in
  allAnswers st' = allAnswers st /\ chatHistory st' = chatHistory st /\
  selectedTopic st' = selectedTopic st /\
  (err = true -> v = ViewScreen (if isFirst then SSplash else SDecision) /\
                 questionQueue st' = questionQueue st /\
                 currentQuestionIndex st' = currentQuestionIndex st) /\
  (err = false -> exists sid q0 rest, fetched = Some (sid, q0 :: rest) /\
                   v = ViewQuestion q0 /\ questionQueue st' = q0 :: rest /\
                   currentQuestionIndex st' = 0) /\
  (forall sid qs, fetched = Some (sid, qs) -> currentSurveyId st' = sid).
Proof.
  unfold startNewRound.
  destruct fetched as [[sid [|q0 rest]]|]; simpl;
    (repeat split); intros; try congruence.
  - by do 3 eexists.
Qed.


Lemma drop_spaces_in (cs : list ascii) (c : ascii) : In c (drop_spaces cs) -> In c cs.
Proof.
  induction cs as [|x cs IH]; simpl; [done |].
  destruct (is_js_space x); [intros H; right; auto | done].
Qed.

Lemma js_trim_in (s : string) (c : ascii) :
  In c (list_ascii_of_string (js_trim s)) -> In c (list_ascii_of_string s).
Proof.
  unfold js_trim. rewrite list_ascii_of_string_of_list_ascii.
  intros H. apply in_rev, drop_spaces_in, in_rev, drop_spaces_in in H. exact H.
Qed.

Lemma label_head_no_sep (cs : list ascii) (c : ascii) :
  In c (label_head cs) -> is_label_sep c = false.
Proof.
  induction cs as [|x cs IH]; simpl; [done |].
  destruct (is_label_sep x) eqn:Ex; [done |]. intros [<- | H]; auto.
Qed.

(** [cleanLabel] gives the empty string exactly for a missing or empty
    label; otherwise it gives the label itself, or a text with no
    [.], [(], [)] or digit. *)
Theorem cleanLabel_spec (raw : option string) :
  (cleanLabel raw = EmptyString <-> raw = None \/ raw = Some EmptyString) /\
  (forall s, raw = Some s ->
     cleanLabel raw = s \/
     forall c, In c (list_ascii_of_string (cleanLabel raw)) -> is_label_sep c = false).
Proof.
  split.
  - destruct raw as [s|]; simpl; [| tauto].
    destruct (String.eqb s EmptyString) eqn:Es.
    + apply String.eqb_eq in Es. subst. tauto.
    + apply String.eqb_neq in Es.
      destruct (Nat.ltb 0 (String.length _)) eqn:El.
      * apply Nat.ltb_lt in El. split; [| intros [H | H]; congruence].
        intros H. rewrite H in El. simpl in El. lia.
      * split; [done | intros [H | H]; congruence].
  - intros s ->. simpl. destruct (String.eqb s EmptyString) eqn:Es.
    + apply String.eqb_eq in Es. by left.
    + destruct (Nat.ltb 0 _); [right | by left].
      intros c Hc. apply js_trim_in in Hc.
      rewrite list_ascii_of_string_of_list_ascii in Hc. exact (label_head_no_sep _ _ Hc).
Qed.

(* ================================================================== *)
(** ** Witnesses of the further properties *)

Lemma sample_ids_match : ids_match (loadStore sample_disk).
Proof. apply map_Forall_insert_2; [reflexivity | apply map_Forall_empty]. Qed.

Lemma ids_match_preserved_witness :
  ids_match (loadStore sample_disk) /\
  ids_match (loadStore (snd (appendAnswers sample_uuid [sample_a2] sample_disk))).
Proof.
  split; [apply sample_ids_match |].
  apply (proj1 (ids_match_preserved sample_disk sample_ids_match)).
Defined.

Lemma createSurvey_spec_witness :
  is_uuid sample_uuid = true /\
  size (surveys (loadStore (snd (createSurvey "sleep quality" sample_uuid
                                   "2026-01-01T00:00:00.000Z" NoFile)))) = 1.
Proof.
  split; [reflexivity |].
  pose proof (createSurvey_spec "sleep quality" sample_uuid "2026-01-01T00:00:00.000Z" NoFile
                eq_refl) as H.
  destruct (createSurvey "sleep quality" sample_uuid "2026-01-01T00:00:00.000Z" NoFile) as [r d'].
  destruct H as (_ & _ & _ & _ & _ & _ & _ & H). simpl. rewrite H by reflexivity. reflexivity.
Defined.

Lemma listSurveys_exact_witness :
  ids_match (loadStore sample_disk) /\
  (sample_uuid, "sleep quality", "2026-01-01T00:00:00.000Z") ∈ fst (listSurveys sample_disk).
Proof.
  split; [apply sample_ids_match |].
  apply (proj1 (listSurveys_exact sample_disk sample_ids_match)).
  exists sample_record. split; [reflexivity | split; reflexivity].
Defined.

Lemma getSurvay_handler_plain_id_witness :
  ("missing" ∉ object_prototype_keys) /\
  getSurvay_handler "missing" sample_disk = (Throw (NotFound "missing"), sample_disk).
Proof.
  assert (Hp : "missing" ∉ object_prototype_keys) by (apply (bool_decide_unpack _); reflexivity).
  split; [exact Hp |].
  rewrite (getSurvay_handler_plain_id "missing" sample_disk Hp). reflexivity.
Defined.

Lemma survay_handler_creates_survey_witness :
  is_uuid sample_uuid = true /\
  surveys (loadStore (snd (survay_handler failing_setAnswers "sleep quality" None [] sample_uuid
                             "2026-01-01T00:00:00.000Z" (Some "Sure! {}") NoFile))) !! sample_uuid =
    Some {| id := sample_uuid; topic := "sleep quality"; createdAt := "2026-01-01T00:00:00.000Z";
            answers := []; summary := None; chat := [] |}.
Proof.
  split; [reflexivity |].
  pose proof (survay_handler_creates_survey failing_setAnswers "sleep quality" None sample_uuid
                "2026-01-01T00:00:00.000Z" (Some "Sure! {}") NoFile (or_introl eq_refl) eq_refl) as H.
  destruct (survay_handler failing_setAnswers "sleep quality" None [] sample_uuid
              "2026-01-01T00:00:00.000Z" (Some "Sure! {}") NoFile) as [o d'].
  exact (proj1 (proj2 H)).
Defined.

Lemma survay_handler_echoes_id_witness :
  "no-such-survey" <> EmptyString /\
  survay_handler failing_setAnswers "sleep quality" (Some "no-such-survey") [] sample_uuid
    "2026-01-01T00:00:00.000Z" (Some "{}") NoFile = (Ok ("no-such-survey", JArr []), NoFile).
Proof.
  split; [discriminate |].
  rewrite (survay_handler_echoes_id failing_setAnswers "sleep quality" "no-such-survey" sample_uuid
             "2026-01-01T00:00:00.000Z" (Some "{}") NoFile ltac:(discriminate)).
  reflexivity.
Defined.

Lemma survay_handler_setAnswers_error_witness :
  [sample_a2] <> [] /\
  (@None string = None \/ @None string = Some EmptyString) /\
  failing_setAnswers sample_uuid [sample_a2]
      (snd (createSurvey "sleep quality" sample_uuid "2026-01-01T00:00:00.000Z" NoFile))
    = (Throw (NotFound sample_uuid),
       snd (createSurvey "sleep quality" sample_uuid "2026-01-01T00:00:00.000Z" NoFile)) /\
  survay_handler failing_setAnswers "sleep quality" None [sample_a2] sample_uuid
    "2026-01-01T00:00:00.000Z" (Some "{}") NoFile
    = (Throw (NotFound sample_uuid),
       snd (createSurvey "sleep quality" sample_uuid "2026-01-01T00:00:00.000Z" NoFile)).
Proof.
  split; [discriminate |]. split; [left; reflexivity |]. split; [reflexivity |].
  apply (proj2 (survay_handler_setAnswers_error failing_setAnswers "sleep quality" None [sample_a2]
                  sample_uuid "2026-01-01T00:00:00.000Z" (Some "{}") NoFile
                  (snd (createSurvey "sleep quality" sample_uuid "2026-01-01T00:00:00.000Z" NoFile))
                  (NotFound sample_uuid) ltac:(discriminate)));
    [left; reflexivity | reflexivity].
Defined.

Lemma survayChat_unknown_id_witness :
  ("missing" ∉ object_prototype_keys) /\ surveys (loadStore sample_disk) !! "missing" = None /\
  survayChat_handler "missing" "Why?" (Some "Because.") "2026-01-02T00:00:00.000Z" sample_disk
    = (Throw (NotFound "missing"), sample_disk).
Proof.
  assert (Hp : "missing" ∉ object_prototype_keys) by (apply (bool_decide_unpack _); reflexivity).
  split; [exact Hp |]. split; [reflexivity |].
  apply survayChat_unknown_id; [exact Hp | reflexivity].
Defined.


Lemma submit_handler_keeps_answers_on_error_witness :
  [sample_a2] <> [] /\ submit_summary (Some "Sure! {}") = Throw SyntaxError /\
  submit_handler appendAnswers failing_persistSummary sample_uuid [sample_a2] (Some "Sure! {}")
    sample_disk = (Throw SyntaxError, snd (appendAnswers sample_uuid [sample_a2] sample_disk)).
Proof.
  split; [discriminate |]. split; [reflexivity |].
  apply submit_handler_keeps_answers_on_error; [discriminate | reflexivity].
Defined.

Lemma answer_all_round_witness :
  ["yes"; "7"] <> [] /\
  currentQuestionIndex sample_round + List.length ["yes"; "7"] = List.length (questionQueue sample_round) /\
  exists st', answer_all sample_round ["yes"; "7"] = Some (st', [ViewQuestion sample_q2; ViewScreen SDecision]) /\
              allAnswers st' = [sample_a1; sample_a2].
Proof.
  split; [discriminate |]. split; [reflexivity |].
  destruct (answer_all_round sample_round ["yes"; "7"] ltac:(discriminate) eq_refl)
    as (st' & H1 & H2 & _).
  exists st'. split; [exact H1 | rewrite H2; reflexivity].
Defined.
